(** * rainmeter-sys: the ABI preamble [native/wrapper.h]

    The repository's only source file is a header made of preprocessor
    directives.  It is embedded here as a transformer of the preprocessor's
    state, one combinator per directive, and the properties of the
    specification are stated on that transformer. *)

From stdpp Require Import gmap strings list.

Open Scope string_scope.
Open Scope list_scope.

(** ** Preprocessor state *)

(** Object-like macros: name to replacement text.  [#define X] gives [X] the
    empty replacement text. *)
Abbreviation macro_table := (gmap string string).

(** Linkage annotation of a declaration. *)
Inductive linkage := Export | Import | Internal.

Inductive decl_kind := DType | DVariable | DFunction.

Record decl := Decl {
  d_kind : decl_kind;
  d_name : string;
  d_linkage : linkage
}.

(** Compile-time diagnostics.  A [#define] of a macro that is already defined
    with another replacement text is diagnosed (C11 6.10.3p2). *)
Inductive diagnostic :=
  | MacroRedefined (name old new : string)
  | HeaderDiagnostic (msg : string).

Record pp_state := PP {
  macros : macro_table;                      (* currently defined macros *)
  once : gset string;                        (* files marked [#pragma once] *)
  included : list (string * macro_table);    (* headers entered, each with
                                                the macros it was entered with *)
  decls : list decl;                         (* declarations of the unit so far *)
  diags : list diagnostic                    (* diagnostics issued so far *)
}.

Definition initial : pp_state := PP ∅ ∅ [] [] [].

(** A directive, and any sequence of them, transforms the state. *)
Definition pp := pp_state → pp_state.

Definition seq (d1 d2 : pp) : pp := λ s, d2 (d1 s).

Declare Scope pp_scope.
Delimit Scope pp_scope with pp.
Bind Scope pp_scope with pp.
Notation "d1 ;; d2" := (seq d1 d2%pp)
  (at level 100, d2 at level 200, right associativity) : pp_scope.

(** ** Directives *)

(** [#pragma once] in [file]. *)
Definition pragma_once (file : string) : pp := λ s,
  PP (macros s) ({[file]} ∪ once s) (included s) (decls s) (diags s).

(** What [#define name body] reports against the table [m]. *)
Definition redefinition (name body : string) (m : macro_table) : list diagnostic :=
  match m !! name with
  | Some old => if decide (old = body) then [] else [MacroRedefined name old body]
  | None => []
  end.

(** Whether a diagnostic is about the macro [name]. *)
Definition concerns (name : string) (d : diagnostic) : bool :=
  match d with
  | MacroRedefined n _ _ => bool_decide (n = name)
  | HeaderDiagnostic _ => false
  end.

(** [#define name body]: the new definition is the one in force afterwards;
    replacing a different one is diagnosed. *)
Definition define (name body : string) : pp := λ s,
  PP (<[name := body]> (macros s)) (once s) (included s) (decls s)
     (diags s ++ redefinition name body (macros s)).

(** [#undef name]. *)
Definition undef (name : string) : pp := λ s,
  PP (delete name (macros s)) (once s) (included s) (decls s) (diags s).

(** [#ifndef name ... #endif]. *)
Definition ifndef (name : string) (body : pp) : pp := λ s,
  match macros s !! name with
  | Some _ => s
  | None => body s
  end.

(** A header that is not part of the sources, seen through what it does with
    the macros it is entered with. *)
Record header := Header {
  h_macros : macro_table → macro_table;      (* the macros it leaves behind *)
  h_decls : macro_table → list decl;         (* the declarations it makes *)
  h_diags : macro_table → list diagnostic    (* the diagnostics it raises *)
}.

(** [#include] of such a header. *)
Definition include_header (file : string) (h : header) : pp := λ s,
  PP (h_macros h (macros s)) (once s)
     (included s ++ [(file, macros s)])
     (decls s ++ h_decls h (macros s))
     (diags s ++ h_diags h (macros s)).

(** [#include] of a file of the repository: skipped when the file has been
    marked [#pragma once]. *)
Definition include (file : string) (contents : pp) : pp := λ s,
  if decide (file ∈ once s) then s else contents s.

(** ** What the two headers make of the macros *)

Definition defined (m : macro_table) (name : string) : Prop := is_Some (m !! name).

Inductive surface := Reduced | Full.

(** Modelled from the spec: [sdk/API/RainmeterAPI.h] is not among the
    sources.  It is "a vendor-defined plugin interface header (whose
    declarations are conditioned by the export/import macro)": export
    declarations when the macro is defined, import declarations otherwise. *)
Definition vendor_annotation (m : macro_table) : linkage :=
  if decide (defined m "LIBRARY_EXPORTS") then Export else Import.

(** Modelled from the spec: a header is such a vendor header when every
    declaration it makes carries the annotation chosen by the macros it is
    entered with. *)
Definition export_conditioned (h : header) : Prop :=
  ∀ m d, d ∈ h_decls h m → d_linkage d = vendor_annotation m.

(** Modelled from the spec: [Windows.h] is not among the sources.  The
    lean-header macro selects "a reduced platform header surface" instead of
    "the platform's full system header surface". *)
Definition platform_surface (m : macro_table) : surface :=
  if decide (defined m "WIN32_LEAN_AND_MEAN") then Reduced else Full.

(** Modelled from the spec: [Windows.h] binds each unprefixed entry point to
    its wide-character ([W]) or narrow-character ([A]) form, "selected via a
    character-set selection macro pair". *)
Definition entry_point (m : macro_table) (name : string) : string :=
  if decide (defined m "UNICODE") then name +:+ "W" else name +:+ "A".

(** Modelled from the spec: [Windows.h] as a header conditioned by the
    lean-header macro.  Its declarations are those of its reduced surface and,
    unless the macro is defined when it is entered, the rest of "the
    platform's full system header surface". *)
Definition lean_conditioned (h : header) (reduced rest : macro_table → list decl) : Prop :=
  ∀ m, h_decls h m =
       reduced m ++ match platform_surface m with
                    | Reduced => []
                    | Full => rest m
                    end.




(** A header keeps a macro when it never leaves it undefined. *)
Definition keeps (h : header) (name : string) : Prop :=
  ∀ m, defined m name → defined (h_macros h m) name.

(** ** The preamble *)

Section Preamble.

(** [<Windows.h>] and ["sdk/API/RainmeterAPI.h"]. *)
Variable Windows_h : header.
Variable RainmeterAPI_h : header.

(** [wrapper.h], directive by directive. *)
Definition wrapper_h : pp := (
  pragma_once "wrapper.h" ;;
  define "LIBRARY_EXPORTS" "" ;;
  ifndef "UNICODE" (
    define "UNICODE" "") ;;
  ifndef "_UNICODE" (
    define "_UNICODE" "") ;;
  define "WIN32_LEAN_AND_MEAN" "" ;;
  include_header "Windows.h" Windows_h ;;
  include_header "sdk/API/RainmeterAPI.h" RainmeterAPI_h)%pp.

(** A translation unit's [#include "wrapper.h"]. *)
Definition include_wrapper : pp := include "wrapper.h" wrapper_h.

End Preamble.

(** The macro definitions of [wrapper.h] (lines 5 to 16), on their own. *)
Definition wrapper_h_macros : pp := (
  define "LIBRARY_EXPORTS" "" ;;
  ifndef "UNICODE" (
    define "UNICODE" "") ;;
  ifndef "_UNICODE" (
    define "_UNICODE" "") ;;
  define "WIN32_LEAN_AND_MEAN" "")%pp.

(** The two inclusions of [wrapper.h] (lines 18 and 19), on their own. *)
Definition wrapper_h_includes (Windows_h RainmeterAPI_h : header) : pp := (
  include_header "Windows.h" Windows_h ;;
  include_header "sdk/API/RainmeterAPI.h" RainmeterAPI_h)%pp.

(** ** The definitions processed *)

(** A run that also records, in order, each [#define] it processes: the state
    of the preprocessor and the definitions processed so far, each with its
    replacement text. *)
Definition logged : Type := pp_state * list (string * string).

Definition lpp := logged → logged.

Definition seq_logged (d1 d2 : lpp) : lpp := λ sl, d2 (d1 sl).

Declare Scope lpp_scope.
Delimit Scope lpp_scope with lpp.
Bind Scope lpp_scope with lpp.
Notation "d1 ;; d2" := (seq_logged d1 d2%lpp)
  (at level 100, d2 at level 200, right associativity) : lpp_scope.

(** [#define name body], recorded. *)
Definition define_logged (name body : string) : lpp := λ sl,
  (define name body sl.1, sl.2 ++ [(name, body)]).

(** [#undef name]: no definition is processed. *)
Definition undef_logged (name : string) : lpp := λ sl,
  (undef name sl.1, sl.2).

(** [#ifndef name ... #endif]: the definitions of a skipped body are not
    processed. *)
Definition ifndef_logged (name : string) (body : lpp) : lpp := λ sl,
  match macros sl.1 !! name with
  | Some _ => sl
  | None => body sl
  end.

(** The macro definitions of [wrapper.h] (lines 5 to 16), recorded. *)
Definition wrapper_h_macros_logged : lpp := (
  define_logged "LIBRARY_EXPORTS" "" ;;
  ifndef_logged "UNICODE" (
    define_logged "UNICODE" "") ;;
  ifndef_logged "_UNICODE" (
    define_logged "_UNICODE" "") ;;
  define_logged "WIN32_LEAN_AND_MEAN" "")%lpp.

(** The replacement text of the last definition of [name] processed. *)
Fixpoint last_definition (name : string) (l : list (string * string)) : option string :=
  match l with
  | [] => None
  | (n, body) :: l' =>
      match last_definition name l' with
      | Some later => Some later
      | None => if decide (n = name) then Some body else None
      end
  end.

(** ** Sample translation units *)

(** A small platform header, for the examples: an include guard, one entry
    point bound by the character set, and a second declaration outside the
    reduced surface. *)
Definition sample_Windows_h : header := {|
  h_macros m :=
    <["GetModuleHandle" := entry_point m "GetModuleHandle"]> (<["_WINDOWS_" := ""]> m);
  h_decls m :=
    Decl DFunction (entry_point m "GetModuleHandle") Import ::
    match platform_surface m with
    | Reduced => []
    | Full => [Decl DFunction "socket" Import]
    end;
  h_diags _ := []
|}.

(** A small vendor header, for the examples: an include guard and two
    interface functions annotated by the export/import macro. *)
Definition sample_RainmeterAPI_h : header := {|
  h_macros m := <["__RAINMETERAPI_H__" := ""]> m;
  h_decls m :=
    [Decl DFunction "RmReadString" (vendor_annotation m);
     Decl DFunction "RmLog" (vendor_annotation m)];
  h_diags _ := []
|}.


(** Including code that defines all four macros its own way first. *)
Definition conflicting_unit : pp := (
  define "LIBRARY_EXPORTS" "1" ;;
  define "UNICODE" "0" ;;
  define "_UNICODE" "0" ;;
  define "WIN32_LEAN_AND_MEAN" "1")%pp.

(** Code between two inclusions that replaces the export macro. *)
Definition meddling_unit : pp := (
  undef "LIBRARY_EXPORTS" ;;
  define "LIBRARY_EXPORTS" "1")%pp.

(** * Properties *)

(** ** The directives, one by one *)

Lemma redefinition_same name body (m : macro_table) :
  m !! name = Some body → redefinition name body m = [].
Proof. intros H. unfold redefinition. rewrite H. by rewrite decide_True. Qed.

Lemma redefinition_fresh name body (m : macro_table) :
  m !! name = None → redefinition name body m = [].
Proof. intros H. unfold redefinition. by rewrite H. Qed.

Lemma redefinition_other name body (m : macro_table) old :
  m !! name = Some old → old ≠ body →
  redefinition name body m = [MacroRedefined name old body].
Proof. intros H Hne. unfold redefinition. rewrite H. by rewrite decide_False. Qed.

Lemma elem_of_redefinition d name body (m : macro_table) :
  d ∈ redefinition name body m →
  ∃ old, d = MacroRedefined name old body ∧ m !! name = Some old ∧ old ≠ body.
Proof.
  unfold redefinition. destruct (m !! name) as [old|] eqn:E.
  - destruct (decide (old = body)) as [->|Hne].
    + intros H. by apply elem_of_nil in H.
    + intros H. apply list_elem_of_singleton in H. eauto.
  - intros H. by apply elem_of_nil in H.
Qed.

Lemma macros_define name body s :
  macros (define name body s) = <[name := body]> (macros s).
Proof. reflexivity. Qed.

(** A guarded definition leaves a defined macro alone and gives an undefined
    one the empty replacement text, silently in both cases. *)
Lemma guarded_define name s :
  ifndef name (define name "") s =
  PP (match macros s !! name with
      | Some _ => macros s
      | None => <[name := ""]> (macros s)
      end) (once s) (included s) (decls s) (diags s).
Proof.
  unfold ifndef, define, redefinition.
  destruct (macros s !! name); [by destruct s|].
  by rewrite app_nil_r.
Qed.

Lemma lookup_guarded_define name s n :
  macros (ifndef name (define name "") s) !! n =
  if decide (name = n)
  then match macros s !! name with Some prior => Some prior | None => Some "" end
  else macros s !! n.
Proof.
  rewrite guarded_define. simpl.
  destruct (decide (name = n)) as [<-|Hne].
  - destruct (macros s !! name) eqn:E; [done|]. by rewrite lookup_insert_eq.
  - destruct (macros s !! name); [done|]. by rewrite lookup_insert_ne.
Qed.

(** ** The macro definitions of the preamble *)

Lemma wrapper_h_unfold W R s :
  wrapper_h W R s =
  wrapper_h_includes W R (wrapper_h_macros (pragma_once "wrapper.h" s)).
Proof. reflexivity. Qed.

Lemma wrapper_h_macros_unfold s :
  wrapper_h_macros s =
  define "WIN32_LEAN_AND_MEAN" ""
    (ifndef "_UNICODE" (define "_UNICODE" "")
      (ifndef "UNICODE" (define "UNICODE" "")
        (define "LIBRARY_EXPORTS" "" s))).
Proof. reflexivity. Qed.

Lemma lookup_wrapper_h_macros s n :
  macros (wrapper_h_macros s) !! n =
  if decide (n = "WIN32_LEAN_AND_MEAN") then Some ""
  else if decide (n = "_UNICODE")
    then match macros s !! n with Some prior => Some prior | None => Some "" end
  else if decide (n = "UNICODE")
    then match macros s !! n with Some prior => Some prior | None => Some "" end
  else if decide (n = "LIBRARY_EXPORTS") then Some ""
  else macros s !! n.
Proof.
  rewrite wrapper_h_macros_unfold, macros_define, lookup_insert.
  destruct (decide (n = "WIN32_LEAN_AND_MEAN")) as [->|H1].
  { by rewrite decide_True. }
  rewrite decide_False by done.
  rewrite lookup_guarded_define.
  destruct (decide (n = "_UNICODE")) as [->|H2].
  { rewrite decide_True by done. rewrite lookup_guarded_define.
    rewrite decide_False by done. rewrite macros_define.
    by rewrite lookup_insert_ne. }
  rewrite decide_False by done.
  rewrite lookup_guarded_define.
  destruct (decide (n = "UNICODE")) as [->|H3].
  { rewrite decide_True by done. rewrite macros_define.
    by rewrite lookup_insert_ne. }
  rewrite decide_False by done.
  rewrite macros_define, lookup_insert.
  destruct (decide (n = "LIBRARY_EXPORTS")) as [->|H4].
  - by rewrite decide_True.
  - by rewrite decide_False.
Qed.

Lemma once_wrapper_h_macros s : once (wrapper_h_macros s) = once s.
Proof.
  rewrite wrapper_h_macros_unfold. simpl.
  by rewrite !guarded_define.
Qed.

Lemma included_wrapper_h_macros s : included (wrapper_h_macros s) = included s.
Proof.
  rewrite wrapper_h_macros_unfold. simpl.
  by rewrite !guarded_define.
Qed.

Lemma decls_wrapper_h_macros s : decls (wrapper_h_macros s) = decls s.
Proof.
  rewrite wrapper_h_macros_unfold. simpl.
  by rewrite !guarded_define.
Qed.

(** The only diagnostics of the macro definitions are those of the two
    unguarded ones. *)
Lemma diags_wrapper_h_macros s :
  diags (wrapper_h_macros s) =
  diags s ++ redefinition "LIBRARY_EXPORTS" "" (macros s)
          ++ redefinition "WIN32_LEAN_AND_MEAN" "" (macros s).
Proof.
  rewrite wrapper_h_macros_unfold.
  unfold define at 1. simpl.
  rewrite !guarded_define. simpl.
  rewrite <- app_assoc. do 2 f_equal.
  unfold redefinition.
  destruct (macros s !! "UNICODE") eqn:EU;
    destruct (macros s !! "_UNICODE") eqn:EV;
    rewrite ?lookup_insert_ne by done; rewrite ?EU, ?EV;
    rewrite ?lookup_insert_ne by done; rewrite ?EU, ?EV;
    by rewrite ?lookup_insert_ne by done.
Qed.

(** [#pragma once] is invisible to the macro definitions. *)
Lemma macros_wrapper_h_macros_once s :
  macros (wrapper_h_macros (pragma_once "wrapper.h" s)) = macros (wrapper_h_macros s).
Proof. apply map_eq. intros n. by rewrite !lookup_wrapper_h_macros. Qed.

(** ** The preamble as a whole *)

Section Whole.

Variables W R : header.

Lemma once_wrapper_h s : once (wrapper_h W R s) = {["wrapper.h"]} ∪ once s.
Proof.
  rewrite wrapper_h_unfold. unfold wrapper_h_includes, seq, include_header.
  cbn [macros once included decls diags].
  by rewrite once_wrapper_h_macros.
Qed.

Lemma included_wrapper_h s :
  included (wrapper_h W R s) =
  included s ++ [("Windows.h", macros (wrapper_h_macros s));
                 ("sdk/API/RainmeterAPI.h", h_macros W (macros (wrapper_h_macros s)))].
Proof.
  rewrite wrapper_h_unfold. unfold wrapper_h_includes, seq, include_header.
  cbn [macros once included decls diags].
  rewrite included_wrapper_h_macros, macros_wrapper_h_macros_once.
  by rewrite <- app_assoc.
Qed.

Lemma decls_wrapper_h s :
  decls (wrapper_h W R s) =
  decls s ++ h_decls W (macros (wrapper_h_macros s))
          ++ h_decls R (h_macros W (macros (wrapper_h_macros s))).
Proof.
  rewrite wrapper_h_unfold. unfold wrapper_h_includes, seq, include_header.
  cbn [macros once included decls diags].
  rewrite decls_wrapper_h_macros, macros_wrapper_h_macros_once.
  by rewrite <- app_assoc.
Qed.

Lemma macros_wrapper_h s :
  macros (wrapper_h W R s) = h_macros R (h_macros W (macros (wrapper_h_macros s))).
Proof.
  rewrite wrapper_h_unfold. unfold wrapper_h_includes, seq, include_header.
  cbn [macros once included decls diags].
  by rewrite macros_wrapper_h_macros_once.
Qed.

Lemma include_wrapper_first s :
  "wrapper.h" ∉ once s → include_wrapper W R s = wrapper_h W R s.
Proof. intros H. unfold include_wrapper, include. by rewrite decide_False. Qed.

Lemma include_wrapper_again s :
  "wrapper.h" ∈ once s → include_wrapper W R s = s.
Proof. intros H. unfold include_wrapper, include. by rewrite decide_True. Qed.

Lemma include_wrapper_marks s : "wrapper.h" ∈ once (include_wrapper W R s).
Proof.
  destruct (decide ("wrapper.h" ∈ once s)) as [H|H].
  - by rewrite include_wrapper_again.
  - rewrite include_wrapper_first by done. rewrite once_wrapper_h. set_solver.
Qed.

End Whole.

(** The macro definitions, processed a second time, change nothing. *)
Lemma wrapper_h_macros_idemp s :
  wrapper_h_macros (wrapper_h_macros s) = wrapper_h_macros s.
Proof.
  set (s' := wrapper_h_macros s).
  assert (macros (wrapper_h_macros s') = macros s') as Hm.
  { apply map_eq. intros n. rewrite lookup_wrapper_h_macros.
    unfold s'. rewrite !lookup_wrapper_h_macros.
    repeat case_decide; subst; try done;
      by destruct (macros s !! _). }
  assert (diags (wrapper_h_macros s') = diags s') as Hd.
  { rewrite diags_wrapper_h_macros.
    rewrite !redefinition_same, !app_nil_r; [done| |];
      unfold s'; by rewrite lookup_wrapper_h_macros. }
  pose proof (once_wrapper_h_macros s') as Ho.
  pose proof (included_wrapper_h_macros s') as Hi.
  pose proof (decls_wrapper_h_macros s') as Hc.
  destruct (wrapper_h_macros s'), s'. simpl in *. congruence.
Qed.


(** ** The sample translation units *)

Lemma meddling_unit_keeps_mark s :
  "wrapper.h" ∈ once s → "wrapper.h" ∈ once (meddling_unit s).
Proof. done. Qed.

Lemma sample_Windows_h_keeps name : keeps sample_Windows_h name.
Proof.
  intros m Hm. unfold defined in *. simpl.
  rewrite !lookup_insert_is_Some'. auto.
Qed.

Lemma sample_RainmeterAPI_h_keeps name : keeps sample_RainmeterAPI_h name.
Proof.
  intros m Hm. unfold defined in *. simpl.
  rewrite lookup_insert_is_Some'. auto.
Qed.

Lemma sample_RainmeterAPI_h_conditioned : export_conditioned sample_RainmeterAPI_h.
Proof.
  intros m d Hd. simpl in Hd.
  apply elem_of_cons in Hd as [->|Hd]; [done|].
  apply list_elem_of_singleton in Hd as ->. done.
Qed.

(** The preamble on an empty unit: the wide entry point of the reduced
    surface, then the interface functions, exported. *)
Example wrapper_h_initial_decls :
  decls (wrapper_h sample_Windows_h sample_RainmeterAPI_h initial) =
  [Decl DFunction "GetModuleHandleW" Import;
   Decl DFunction "RmReadString" Export;
   Decl DFunction "RmLog" Export].
Proof. vm_compute. reflexivity. Qed.

Example wrapper_h_initial_diags :
  diags (wrapper_h sample_Windows_h sample_RainmeterAPI_h initial) = [].
Proof. vm_compute. reflexivity. Qed.

(** After conflicting definitions: the two unguarded definitions are
    diagnosed, the two guarded ones are skipped. *)
Example wrapper_h_macros_conflicting_diags :
  diags (wrapper_h_macros (conflicting_unit initial)) =
  [MacroRedefined "LIBRARY_EXPORTS" "1" "";
   MacroRedefined "WIN32_LEAN_AND_MEAN" "1" ""].
Proof. vm_compute. reflexivity. Qed.

Example wrapper_h_macros_conflicting_table :
  macros (wrapper_h_macros (conflicting_unit initial)) =
  list_to_map [("LIBRARY_EXPORTS", ""); ("UNICODE", "0"); ("_UNICODE", "0");
               ("WIN32_LEAN_AND_MEAN", "")].
Proof. vm_compute. reflexivity. Qed.

(** * The claims of the specification *)

(** C1.  When a translation unit includes the preamble for the first time,
    the vendor header is entered after the platform header, with
    [LIBRARY_EXPORTS] defined, so every declaration the vendor header makes is
    export-annotated, none import-annotated.  This holds whether or not the
    including code defined the character-set or export macros itself; it
    supposes that the platform header does not undefine the export macro and
    that the vendor header annotates its declarations by it. *)
Theorem exports_defined_before_vendor_header (W R : header) (s : pp_state) :
  "wrapper.h" ∉ once s →
  keeps W "LIBRARY_EXPORTS" →
  export_conditioned R →
  ∃ m1 m2,
    included (include_wrapper W R s) =
      included s ++ [("Windows.h", m1); ("sdk/API/RainmeterAPI.h", m2)]
    ∧ m1 !! "LIBRARY_EXPORTS" = Some ""
    ∧ defined m2 "LIBRARY_EXPORTS"
    ∧ decls (include_wrapper W R s) = decls s ++ h_decls W m1 ++ h_decls R m2
    ∧ Forall (λ d, d_linkage d = Export ∧ d_linkage d ≠ Import) (h_decls R m2).
Proof.
  intros Hfirst HW HR.
  rewrite include_wrapper_first by done.
  exists (macros (wrapper_h_macros s)), (h_macros W (macros (wrapper_h_macros s))).
  assert (macros (wrapper_h_macros s) !! "LIBRARY_EXPORTS" = Some "") as H1.
  { by rewrite lookup_wrapper_h_macros. }
  assert (defined (h_macros W (macros (wrapper_h_macros s))) "LIBRARY_EXPORTS") as H2.
  { apply HW. unfold defined. by rewrite H1. }
  split_and!; [apply included_wrapper_h|done|done|apply decls_wrapper_h|].
  apply Forall_forall. intros d Hd.
  rewrite (HR _ _ Hd). unfold vendor_annotation.
  by rewrite decide_True.
Qed.

(** C1 on the sample headers, from the initial state. *)
Lemma exports_defined_before_vendor_header_witness :
  ("wrapper.h" ∉ once initial)
  ∧ keeps sample_Windows_h "LIBRARY_EXPORTS"
  ∧ export_conditioned sample_RainmeterAPI_h
  ∧ ∃ m1 m2,
      included (include_wrapper sample_Windows_h sample_RainmeterAPI_h initial) =
        included initial ++ [("Windows.h", m1); ("sdk/API/RainmeterAPI.h", m2)]
      ∧ m1 !! "LIBRARY_EXPORTS" = Some ""
      ∧ defined m2 "LIBRARY_EXPORTS"
      ∧ decls (include_wrapper sample_Windows_h sample_RainmeterAPI_h initial) =
          decls initial ++ h_decls sample_Windows_h m1 ++ h_decls sample_RainmeterAPI_h m2
      ∧ Forall (λ d, d_linkage d = Export ∧ d_linkage d ≠ Import)
               (h_decls sample_RainmeterAPI_h m2).
Proof.
  assert ("wrapper.h" ∉ once initial) as H by (simpl; apply not_elem_of_empty).
  split_and!;
    [ exact H
    | exact (sample_Windows_h_keeps "LIBRARY_EXPORTS")
    | exact sample_RainmeterAPI_h_conditioned
    | exact (exports_defined_before_vendor_header
               sample_Windows_h sample_RainmeterAPI_h initial H
               (sample_Windows_h_keeps "LIBRARY_EXPORTS")
               sample_RainmeterAPI_h_conditioned) ].
Defined.

(** C2.  For every prior state, each of [UNICODE] and [_UNICODE] keeps its
    prior definition when it has one and gets the empty replacement text when
    it has none; these are the macros the platform header is entered with. *)
Theorem charset_macros_defined_only_if_absent (W R : header) (s : pp_state) :
  ∃ m1 m2,
    included (wrapper_h W R s) =
      included s ++ [("Windows.h", m1); ("sdk/API/RainmeterAPI.h", m2)]
    ∧ m1 = macros (wrapper_h_macros s)
    ∧ m1 !! "UNICODE" =
        match macros s !! "UNICODE" with
        | Some prior => Some prior
        | None => Some ""
        end
    ∧ m1 !! "_UNICODE" =
        match macros s !! "_UNICODE" with
        | Some prior => Some prior
        | None => Some ""
        end.
Proof.
  exists (macros (wrapper_h_macros s)), (h_macros W (macros (wrapper_h_macros s))).
  split_and!; [apply included_wrapper_h|done|..];
    by rewrite lookup_wrapper_h_macros.
Qed.

(** C3.  [LIBRARY_EXPORTS] is defined without an existence check: whatever the
    prior state, and whatever prior definition it had, the macro definitions
    leave it with the empty replacement text, and it is defined once the whole
    preamble is processed, the two headers not undefining it.  The
    character-set macros are guarded instead: each keeps a prior definition
    and defaults to the empty replacement text. *)
Theorem library_exports_defined_unconditionally (W R : header) (s : pp_state) :
  keeps W "LIBRARY_EXPORTS" →
  keeps R "LIBRARY_EXPORTS" →
  macros (wrapper_h_macros s) !! "LIBRARY_EXPORTS" = Some ""
  ∧ defined (macros (wrapper_h W R s)) "LIBRARY_EXPORTS"
  ∧ macros (wrapper_h_macros s) !! "UNICODE" =
      Some (default "" (macros s !! "UNICODE"))
  ∧ macros (wrapper_h_macros s) !! "_UNICODE" =
      Some (default "" (macros s !! "_UNICODE")).
Proof.
  intros HW HR.
  assert (macros (wrapper_h_macros s) !! "LIBRARY_EXPORTS" = Some "") as H1.
  { by rewrite lookup_wrapper_h_macros. }
  split_and!; [done| |rewrite lookup_wrapper_h_macros..].
  - rewrite macros_wrapper_h. apply HR, HW. unfold defined. by rewrite H1.
  - simpl. by destruct (macros s !! "UNICODE").
  - simpl. by destruct (macros s !! "_UNICODE").
Qed.

(** C3 on the sample headers, after code that defined [LIBRARY_EXPORTS] as
    [1]. *)
Lemma library_exports_defined_unconditionally_witness :
  keeps sample_Windows_h "LIBRARY_EXPORTS"
  ∧ keeps sample_RainmeterAPI_h "LIBRARY_EXPORTS"
  ∧ macros (conflicting_unit initial) !! "LIBRARY_EXPORTS" = Some "1"
  ∧ (macros (wrapper_h_macros (conflicting_unit initial)) !! "LIBRARY_EXPORTS" = Some ""
     ∧ defined (macros (wrapper_h sample_Windows_h sample_RainmeterAPI_h
                          (conflicting_unit initial))) "LIBRARY_EXPORTS"
     ∧ macros (wrapper_h_macros (conflicting_unit initial)) !! "UNICODE" =
         Some (default "" (macros (conflicting_unit initial) !! "UNICODE"))
     ∧ macros (wrapper_h_macros (conflicting_unit initial)) !! "_UNICODE" =
         Some (default "" (macros (conflicting_unit initial) !! "_UNICODE"))).
Proof.
  assert (macros (conflicting_unit initial) !! "LIBRARY_EXPORTS" = Some "1") as He
    by (vm_compute; reflexivity).
  refine (conj (sample_Windows_h_keeps _) (conj (sample_RainmeterAPI_h_keeps _)
           (conj He _))).
  exact (library_exports_defined_unconditionally
           sample_Windows_h sample_RainmeterAPI_h (conflicting_unit initial)
           (sample_Windows_h_keeps "LIBRARY_EXPORTS")
           (sample_RainmeterAPI_h_keeps "LIBRARY_EXPORTS")).
Defined.

(** C4.  Including the preamble a second time, directly or through other code
    that comes in between, adds no diagnostic, so no macro-redefinition error:
    the second inclusion is skipped.  Even processed a second time, the macro
    definitions would change nothing, the character-set macros being guarded
    and the other two definitions repeating themselves. *)
Theorem second_inclusion_raises_no_redefinition
    (W R : header) (between : pp) (s : pp_state) :
  (∀ s', "wrapper.h" ∈ once s' → "wrapper.h" ∈ once (between s')) →
  diags (include_wrapper W R (include_wrapper W R s)) = diags (include_wrapper W R s)
  ∧ diags (include_wrapper W R (between (include_wrapper W R s))) =
      diags (between (include_wrapper W R s))
  ∧ diags (wrapper_h_macros (wrapper_h_macros s)) = diags (wrapper_h_macros s).
Proof.
  intros Hbetween. split_and!.
  - rewrite (include_wrapper_again W R (include_wrapper W R s)); [done|].
    apply include_wrapper_marks.
  - rewrite (include_wrapper_again W R (between _)); [done|].
    apply Hbetween, include_wrapper_marks.
  - by rewrite wrapper_h_macros_idemp.
Qed.

(** C4 on the sample headers, with code between the two inclusions that
    replaces the export macro. *)
Lemma second_inclusion_raises_no_redefinition_witness :
  (∀ s', "wrapper.h" ∈ once s' → "wrapper.h" ∈ once (meddling_unit s'))
  ∧ diags (include_wrapper sample_Windows_h sample_RainmeterAPI_h
            (include_wrapper sample_Windows_h sample_RainmeterAPI_h initial)) =
      diags (include_wrapper sample_Windows_h sample_RainmeterAPI_h initial)
  ∧ diags (include_wrapper sample_Windows_h sample_RainmeterAPI_h
            (meddling_unit
              (include_wrapper sample_Windows_h sample_RainmeterAPI_h initial))) =
      diags (meddling_unit
              (include_wrapper sample_Windows_h sample_RainmeterAPI_h initial))
  ∧ diags (wrapper_h_macros (wrapper_h_macros initial)) =
      diags (wrapper_h_macros initial).
Proof.
  split; [exact meddling_unit_keeps_mark|].
  exact (second_inclusion_raises_no_redefinition
           sample_Windows_h sample_RainmeterAPI_h meddling_unit initial
           meddling_unit_keeps_mark).
Defined.

(** The recorded run goes through the same states as the plain one. *)
Lemma guarded_define_logged_state name sl :
  (ifndef_logged name (define_logged name "") sl).1 =
  ifndef name (define name "") sl.1.
Proof. unfold ifndef_logged, ifndef. by destruct (macros sl.1 !! name). Qed.

Lemma guarded_define_logged_log name sl :
  (ifndef_logged name (define_logged name "") sl).2 =
  sl.2 ++ match macros sl.1 !! name with
          | Some _ => []
          | None => [(name, "")]
          end.
Proof.
  unfold ifndef_logged.
  destruct (macros sl.1 !! name); [by rewrite app_nil_r|done].
Qed.

Lemma wrapper_h_macros_logged_state sl :
  (wrapper_h_macros_logged sl).1 = wrapper_h_macros sl.1.
Proof.
  unfold wrapper_h_macros_logged, seq_logged.
  rewrite wrapper_h_macros_unfold.
  unfold define_logged at 1. cbn [fst].
  by rewrite !guarded_define_logged_state.
Qed.

Lemma last_definition_app name l n body :
  last_definition name (l ++ [(n, body)]) =
  if decide (n = name) then Some body else last_definition name l.
Proof.
  induction l as [|[n' body'] l IH]; simpl.
  - by destruct (decide (n = name)).
  - rewrite IH. by destruct (decide (n = name)).
Qed.

Lemma last_definition_guarded name sl n :
  last_definition n (ifndef_logged name (define_logged name "") sl).2 =
  if decide (name = n)
  then match macros sl.1 !! name with
       | Some _ => last_definition n sl.2
       | None => Some ""
       end
  else last_definition n sl.2.
Proof.
  rewrite guarded_define_logged_log.
  destruct (macros sl.1 !! name).
  - rewrite app_nil_r. by destruct (decide (name = n)).
  - by rewrite last_definition_app.
Qed.

(** The last definition processed of each macro, after the macro definitions
    of the preamble. *)
Lemma last_definition_wrapper_h_macros s l n :
  last_definition n (wrapper_h_macros_logged (s, l)).2 =
  if decide (n = "WIN32_LEAN_AND_MEAN") then Some ""
  else if decide (n = "_UNICODE")
    then match macros s !! n with Some _ => last_definition n l | None => Some "" end
  else if decide (n = "UNICODE")
    then match macros s !! n with Some _ => last_definition n l | None => Some "" end
  else if decide (n = "LIBRARY_EXPORTS") then Some ""
  else last_definition n l.
Proof.
  unfold wrapper_h_macros_logged, seq_logged.
  change (define_logged "LIBRARY_EXPORTS" "" (s, l))
    with (define "LIBRARY_EXPORTS" "" s, l ++ [("LIBRARY_EXPORTS", "")]).
  unfold define_logged at 1. cbn [snd].
  rewrite last_definition_app.
  destruct (decide (n = "WIN32_LEAN_AND_MEAN")) as [->|H1].
  { by rewrite decide_True. }
  rewrite decide_False by done.
  rewrite last_definition_guarded, guarded_define_logged_state.
  destruct (decide (n = "_UNICODE")) as [->|H2].
  { rewrite decide_True by done. rewrite lookup_guarded_define.
    rewrite decide_False by done. cbn [fst]. rewrite macros_define.
    rewrite lookup_insert_ne by done.
    destruct (macros s !! "_UNICODE"); [|done].
    rewrite last_definition_guarded, decide_False by done.
    cbn [snd]. rewrite last_definition_app. by rewrite decide_False. }
  rewrite decide_False by done.
  rewrite last_definition_guarded.
  destruct (decide (n = "UNICODE")) as [->|H3].
  { rewrite decide_True by done. cbn [fst snd]. rewrite macros_define.
    rewrite lookup_insert_ne by done.
    destruct (macros s !! "UNICODE"); [|done].
    rewrite last_definition_app. by rewrite decide_False. }
  rewrite decide_False by done.
  cbn [snd]. rewrite last_definition_app.
  destruct (decide (n = "LIBRARY_EXPORTS")) as [->|H4].
  - by rewrite decide_True.
  - by rewrite decide_False.
Qed.

(** C5.  When the including code has defined a character-set or export macro
    its own way before the preamble, the definition in force after the macro
    definitions of the preamble is the last one processed: for
    [LIBRARY_EXPORTS] that of the preamble, for [UNICODE] and [_UNICODE] that
    of the including code, the guard skipping the preamble's.  The same holds
    when the macro was not defined beforehand.  The only failures the macro
    definitions add are compile-time diagnostics, each of a redefinition of
    [LIBRARY_EXPORTS] or [WIN32_LEAN_AND_MEAN]. *)
Theorem last_processed_definition_wins
    (name : string) (s : pp_state) (l : list (string * string)) :
  name ∈ ["LIBRARY_EXPORTS"; "UNICODE"; "_UNICODE"] →
  last_definition name l = macros s !! name →
  (wrapper_h_macros_logged (s, l)).1 = wrapper_h_macros s
  ∧ macros (wrapper_h_macros s) !! name =
      last_definition name (wrapper_h_macros_logged (s, l)).2
  ∧ macros (wrapper_h_macros s) !! name =
      Some (if decide (name = "LIBRARY_EXPORTS") then ""
            else default "" (macros s !! name))
  ∧ ∃ added,
      diags (wrapper_h_macros s) = diags s ++ added
      ∧ Forall (λ d, ∃ n old, d = MacroRedefined n old "" ∧ old ≠ ""
                     ∧ (n = "LIBRARY_EXPORTS" ∨ n = "WIN32_LEAN_AND_MEAN"))
               added.
Proof.
  intros Hname Hlast.
  split; [apply (wrapper_h_macros_logged_state (s, l))|].
  rewrite last_definition_wrapper_h_macros, lookup_wrapper_h_macros, Hlast.
  rewrite diags_wrapper_h_macros.
  split_and!.
  - repeat case_decide; try done; by destruct (macros s !! name).
  - set_unfold. destruct Hname as [->|[->|[->|[]]]]; simpl; try done;
      by destruct (macros s !! _).
  - eexists. split; [reflexivity|].
    apply Forall_app. split; apply Forall_forall; intros d Hd;
      apply elem_of_redefinition in Hd as (old & -> & _ & Hne); eauto 6.
Qed.

(** C5 for [UNICODE], after [#define UNICODE 0]: the definition of the
    including code is the last one processed, and the one in force. *)
Lemma last_processed_definition_wins_witness :
  "UNICODE" ∈ ["LIBRARY_EXPORTS"; "UNICODE"; "_UNICODE"]
  ∧ last_definition "UNICODE" (define_logged "UNICODE" "0" (initial, [])).2 =
      macros (define_logged "UNICODE" "0" (initial, [])).1 !! "UNICODE"
  ∧ macros (wrapper_h_macros (define "UNICODE" "0" initial)) !! "UNICODE" =
      last_definition "UNICODE"
        (wrapper_h_macros_logged (define_logged "UNICODE" "0" (initial, []))).2
  ∧ macros (wrapper_h_macros (define "UNICODE" "0" initial)) !! "UNICODE" = Some "0".
Proof.
  assert ("UNICODE" ∈ ["LIBRARY_EXPORTS"; "UNICODE"; "_UNICODE"]) as Hname
    by (apply list_elem_of_further, list_elem_of_here).
  assert (last_definition "UNICODE" [("UNICODE", "0")] =
          macros (define "UNICODE" "0" initial) !! "UNICODE") as Hlast
    by (vm_compute; reflexivity).
  pose proof (last_processed_definition_wins "UNICODE"
                (define "UNICODE" "0" initial) [("UNICODE", "0")] Hname Hlast)
    as (_ & H1 & H2 & _).
  refine (conj Hname (conj Hlast (conj H1 _))).
  rewrite H2. vm_compute. reflexivity.
Defined.

(** C6.  The platform header is entered with [WIN32_LEAN_AND_MEAN] already
    defined, whatever the prior state, so a platform header conditioned by
    that macro makes the declarations of its reduced surface only, and those,
    followed by the vendor header's, are what the unit receives from the
    preamble: nothing of the rest of the full surface. *)
Theorem lean_macro_defined_before_platform_header
    (W R : header) (reduced rest : macro_table → list decl) (s : pp_state) :
  lean_conditioned W reduced rest →
  ∃ m1 m2,
    included (wrapper_h W R s) =
      included s ++ [("Windows.h", m1); ("sdk/API/RainmeterAPI.h", m2)]
    ∧ m1 !! "WIN32_LEAN_AND_MEAN" = Some ""
    ∧ h_decls W m1 = reduced m1
    ∧ decls (wrapper_h W R s) = decls s ++ reduced m1 ++ h_decls R m2.
Proof.
  intros HW.
  exists (macros (wrapper_h_macros s)), (h_macros W (macros (wrapper_h_macros s))).
  assert (macros (wrapper_h_macros s) !! "WIN32_LEAN_AND_MEAN" = Some "") as H1.
  { by rewrite lookup_wrapper_h_macros. }
  assert (h_decls W (macros (wrapper_h_macros s)) = reduced (macros (wrapper_h_macros s)))
    as H2.
  { rewrite HW. unfold platform_surface, defined. rewrite H1.
    rewrite decide_True by done. apply app_nil_r. }
  split_and!; [apply included_wrapper_h|done|done|].
  by rewrite decls_wrapper_h, H2.
Qed.

Lemma sample_Windows_h_lean :
  lean_conditioned sample_Windows_h
    (λ m, [Decl DFunction (entry_point m "GetModuleHandle") Import])
    (λ _, [Decl DFunction "socket" Import]).
Proof. intros m. simpl. by destruct (platform_surface m). Qed.

(** C6 on the sample headers, from the initial state: the unit receives
    [GetModuleHandleW] and not [socket]. *)
Lemma lean_macro_defined_before_platform_header_witness :
  lean_conditioned sample_Windows_h
    (λ m, [Decl DFunction (entry_point m "GetModuleHandle") Import])
    (λ _, [Decl DFunction "socket" Import])
  ∧ (∃ m1 m2,
      included (wrapper_h sample_Windows_h sample_RainmeterAPI_h initial) =
        included initial ++ [("Windows.h", m1); ("sdk/API/RainmeterAPI.h", m2)]
      ∧ m1 !! "WIN32_LEAN_AND_MEAN" = Some ""
      ∧ h_decls sample_Windows_h m1 =
          [Decl DFunction (entry_point m1 "GetModuleHandle") Import]
      ∧ decls (wrapper_h sample_Windows_h sample_RainmeterAPI_h initial) =
          decls initial
            ++ [Decl DFunction (entry_point m1 "GetModuleHandle") Import]
            ++ h_decls sample_RainmeterAPI_h m2)
  ∧ Decl DFunction "socket" Import
      ∉ decls (wrapper_h sample_Windows_h sample_RainmeterAPI_h initial).
Proof.
  refine (conj sample_Windows_h_lean (conj _ _)).
  - exact (lean_macro_defined_before_platform_header
             sample_Windows_h sample_RainmeterAPI_h _ _ initial
             sample_Windows_h_lean).
  - vm_compute. intros H.
    repeat (apply elem_of_cons in H as [H|H]; [discriminate|]).
    by apply elem_of_nil in H.
Defined.





(** C8.  The preamble makes no declaration of its own: the declarations of the
    unit after it are those before it followed by those of the platform header
    and those of the vendor header, and its directives up to the inclusions
    leave the declarations as they were. *)
Theorem preamble_declares_nothing (W R : header) (s : pp_state) :
  ∃ m1 m2,
    included (wrapper_h W R s) =
      included s ++ [("Windows.h", m1); ("sdk/API/RainmeterAPI.h", m2)]
    ∧ decls (wrapper_h W R s) = decls s ++ h_decls W m1 ++ h_decls R m2
    ∧ decls (wrapper_h_macros (pragma_once "wrapper.h" s)) = decls s.
Proof.
  exists (macros (wrapper_h_macros s)), (h_macros W (macros (wrapper_h_macros s))).
  split_and!; [apply included_wrapper_h|apply decls_wrapper_h|].
  by rewrite decls_wrapper_h_macros.
Qed.

(** C9.  Inclusion of the preamble is idempotent: the first inclusion marks
    the file, and a second inclusion leaves the whole state, macros, headers
    entered, declarations and diagnostics, as the first one left it. *)
Theorem include_wrapper_idempotent (W R : header) (s : pp_state) :
  "wrapper.h" ∈ once (include_wrapper W R s)
  ∧ include_wrapper W R (include_wrapper W R s) = include_wrapper W R s.
Proof.
  split; [apply include_wrapper_marks|].
  apply include_wrapper_again, include_wrapper_marks.
Qed.

(** C10.  [WIN32_LEAN_AND_MEAN] is defined without an existence check:
    whatever the prior state, the macro definitions leave it with the empty
    replacement text, a different prior definition being replaced and the
    replacement diagnosed, and it is defined once the whole preamble is
    processed, the two headers not undefining it. *)
Theorem lean_macro_defined_unconditionally (W R : header) (s : pp_state) :
  keeps W "WIN32_LEAN_AND_MEAN" →
  keeps R "WIN32_LEAN_AND_MEAN" →
  macros (wrapper_h_macros s) !! "WIN32_LEAN_AND_MEAN" = Some ""
  ∧ defined (macros (wrapper_h W R s)) "WIN32_LEAN_AND_MEAN"
  ∧ ∀ prior, macros s !! "WIN32_LEAN_AND_MEAN" = Some prior → prior ≠ "" →
      macros (wrapper_h_macros s) !! "WIN32_LEAN_AND_MEAN" ≠ Some prior
      ∧ MacroRedefined "WIN32_LEAN_AND_MEAN" prior "" ∈ diags (wrapper_h_macros s).
Proof.
  intros HW HR.
  assert (macros (wrapper_h_macros s) !! "WIN32_LEAN_AND_MEAN" = Some "") as H1.
  { by rewrite lookup_wrapper_h_macros. }
  split_and!; [done| |].
  - rewrite macros_wrapper_h. apply HR, HW. unfold defined. by rewrite H1.
  - intros prior Hprior Hne. split.
    + rewrite H1. congruence.
    + rewrite diags_wrapper_h_macros, (redefinition_other _ _ _ _ Hprior Hne).
      set_solver.
Qed.

(** C10 on the sample headers, after code that defined
    [WIN32_LEAN_AND_MEAN] as [1]. *)
Lemma lean_macro_defined_unconditionally_witness :
  keeps sample_Windows_h "WIN32_LEAN_AND_MEAN"
  ∧ keeps sample_RainmeterAPI_h "WIN32_LEAN_AND_MEAN"
  ∧ macros (conflicting_unit initial) !! "WIN32_LEAN_AND_MEAN" = Some "1"
  ∧ macros (wrapper_h_macros (conflicting_unit initial)) !! "WIN32_LEAN_AND_MEAN" = Some ""
  ∧ defined (macros (wrapper_h sample_Windows_h sample_RainmeterAPI_h
                       (conflicting_unit initial))) "WIN32_LEAN_AND_MEAN"
  ∧ MacroRedefined "WIN32_LEAN_AND_MEAN" "1" ""
      ∈ diags (wrapper_h_macros (conflicting_unit initial)).
Proof.
  assert (macros (conflicting_unit initial) !! "WIN32_LEAN_AND_MEAN" = Some "1") as Hp
    by (vm_compute; reflexivity).
  assert ("1" ≠ "") as Hne by discriminate.
  pose proof (lean_macro_defined_unconditionally
                sample_Windows_h sample_RainmeterAPI_h (conflicting_unit initial)
                (sample_Windows_h_keeps "WIN32_LEAN_AND_MEAN")
                (sample_RainmeterAPI_h_keeps "WIN32_LEAN_AND_MEAN")) as (H1 & H2 & H3).
  refine (conj (sample_Windows_h_keeps _) (conj (sample_RainmeterAPI_h_keeps _)
           (conj Hp (conj H1 (conj H2 _))))).
  exact (proj2 (H3 "1" Hp Hne)).
Defined.

(** ** Further properties of the macro definitions *)

(** X1.  The macro definitions of the preamble touch four macros only: any
    other macro has afterwards the definition, or none, it had before. *)
Theorem other_macros_untouched (s : pp_state) (n : string) :
  n ≠ "LIBRARY_EXPORTS" → n ≠ "UNICODE" → n ≠ "_UNICODE" →
  n ≠ "WIN32_LEAN_AND_MEAN" →
  macros (wrapper_h_macros s) !! n = macros s !! n.
Proof.
  intros H1 H2 H3 H4. rewrite lookup_wrapper_h_macros.
  by rewrite !decide_False.
Qed.

(** X1 for [NDEBUG], defined as [1] beforehand. *)
Lemma other_macros_untouched_witness :
  macros (wrapper_h_macros (define "NDEBUG" "1" initial)) !! "NDEBUG" =
    macros (define "NDEBUG" "1" initial) !! "NDEBUG"
  ∧ macros (wrapper_h_macros (define "NDEBUG" "1" initial)) !! "NDEBUG" = Some "1".
Proof.
  split; [|vm_compute; reflexivity].
  apply (other_macros_untouched (define "NDEBUG" "1" initial) "NDEBUG");
    discriminate.
Defined.

(** X2.  When neither the export macro nor the lean-header macro is defined
    beforehand, the macro definitions of the preamble raise no diagnostic. *)
Theorem clean_unit_raises_no_diagnostic (s : pp_state) :
  macros s !! "LIBRARY_EXPORTS" = None →
  macros s !! "WIN32_LEAN_AND_MEAN" = None →
  diags (wrapper_h_macros s) = diags s.
Proof.
  intros H1 H2. rewrite diags_wrapper_h_macros.
  by rewrite !redefinition_fresh, !app_nil_r.
Qed.

(** X2 from the initial state. *)
Lemma clean_unit_raises_no_diagnostic_witness :
  macros initial !! "LIBRARY_EXPORTS" = None
  ∧ macros initial !! "WIN32_LEAN_AND_MEAN" = None
  ∧ diags (wrapper_h_macros initial) = diags initial.
Proof.
  assert (macros initial !! "LIBRARY_EXPORTS" = None) as H1 by reflexivity.
  assert (macros initial !! "WIN32_LEAN_AND_MEAN" = None) as H2 by reflexivity.
  exact (conj H1 (conj H2 (clean_unit_raises_no_diagnostic initial H1 H2))).
Defined.

(** The diagnostics of the whole preamble: those of its two unguarded
    definitions, then those of the two headers. *)
Lemma diags_wrapper_h W R s :
  diags (wrapper_h W R s) =
  diags (wrapper_h_macros s)
    ++ h_diags W (macros (wrapper_h_macros s))
    ++ h_diags R (h_macros W (macros (wrapper_h_macros s))).
Proof.
  rewrite wrapper_h_unfold. unfold wrapper_h_includes, seq, include_header.
  cbn [macros once included decls diags].
  rewrite macros_wrapper_h_macros_once, <- app_assoc. f_equal.
  by rewrite !diags_wrapper_h_macros.
Qed.

Lemma filter_concerns_redefinition name n body (m : macro_table) :
  n ≠ name →
  filter (λ d, concerns name d) (redefinition n body m) = [].
Proof.
  intros Hne. unfold redefinition.
  destruct (m !! n) as [old|]; [|done].
  destruct (decide (old = body)); [done|].
  rewrite filter_cons_False; [apply filter_nil|].
  simpl. rewrite bool_decide_eq_false_2 by done. by intros [].
Qed.

Lemma length_redefinition name body (m : macro_table) :
  (List.length (redefinition name body m) ≤ 1)%nat.
Proof.
  unfold redefinition. destruct (m !! name); [|simpl; lia].
  destruct (decide _); simpl; lia.
Qed.

(** X3.  Whatever the prior state, the macro definitions of the preamble add
    no diagnostic about [UNICODE] or [_UNICODE], the guarded macros, and at
    most two diagnostics in all. *)
Theorem guarded_macros_never_diagnosed (s : pp_state) :
  filter (λ d, concerns "UNICODE" d) (diags (wrapper_h_macros s)) =
    filter (λ d, concerns "UNICODE" d) (diags s)
  ∧ filter (λ d, concerns "_UNICODE" d) (diags (wrapper_h_macros s)) =
      filter (λ d, concerns "_UNICODE" d) (diags s)
  ∧ (List.length (diags (wrapper_h_macros s)) ≤ List.length (diags s) + 2)%nat.
Proof.
  rewrite diags_wrapper_h_macros, !filter_app, !length_app.
  rewrite !filter_concerns_redefinition, !app_nil_r by done.
  split_and!; [done..|].
  pose proof (length_redefinition "LIBRARY_EXPORTS" "" (macros s)).
  pose proof (length_redefinition "WIN32_LEAN_AND_MEAN" "" (macros s)).
  lia.
Qed.

(** X4.  The macro definitions of the preamble undefine nothing: the macros
    defined afterwards are those defined before, and the four of the
    preamble. *)
Theorem macro_definitions_only_add (s : pp_state) :
  dom (macros (wrapper_h_macros s)) =
  {["LIBRARY_EXPORTS"; "UNICODE"; "_UNICODE"; "WIN32_LEAN_AND_MEAN"]}
    ∪ dom (macros s).
Proof.
  apply set_eq. intros n.
  rewrite elem_of_union, !elem_of_dom, lookup_wrapper_h_macros.
  repeat case_decide; subst.
  - split; [set_solver|eauto].
  - split; [set_solver|]. intros _. by destruct (macros s !! "_UNICODE").
  - split; [set_solver|]. intros _. by destruct (macros s !! "UNICODE").
  - split; [set_solver|eauto].
  - split; [auto|]. intros [Hin|Hs]; [|done].
    set_unfold. intuition congruence.
Qed.

(** X6.  When the unit defines neither [LIBRARY_EXPORTS] nor
    [WIN32_LEAN_AND_MEAN] beforehand and the two headers raise no diagnostic,
    including the preamble, for the first time or again, raises none. *)
Theorem clean_inclusion_raises_no_diagnostic (W R : header) (s : pp_state) :
  (∀ m, h_diags W m = []) →
  (∀ m, h_diags R m = []) →
  macros s !! "LIBRARY_EXPORTS" = None →
  macros s !! "WIN32_LEAN_AND_MEAN" = None →
  diags (include_wrapper W R s) = diags s.
Proof.
  intros HW HR H1 H2.
  destruct (decide ("wrapper.h" ∈ once s)) as [Hin|Hin].
  - by rewrite include_wrapper_again.
  - rewrite include_wrapper_first by done.
    rewrite diags_wrapper_h, HW, HR, !app_nil_r, diags_wrapper_h_macros.
    by rewrite !redefinition_fresh, !app_nil_r.
Qed.

(** X6 on the sample headers, from the initial state. *)
Lemma clean_inclusion_raises_no_diagnostic_witness :
  (∀ m, h_diags sample_Windows_h m = [])
  ∧ (∀ m, h_diags sample_RainmeterAPI_h m = [])
  ∧ macros initial !! "LIBRARY_EXPORTS" = None
  ∧ macros initial !! "WIN32_LEAN_AND_MEAN" = None
  ∧ diags (include_wrapper sample_Windows_h sample_RainmeterAPI_h initial) =
      diags initial.
Proof.
  assert (∀ m, h_diags sample_Windows_h m = []) as HW by reflexivity.
  assert (∀ m, h_diags sample_RainmeterAPI_h m = []) as HR by reflexivity.
  assert (macros initial !! "LIBRARY_EXPORTS" = None) as H1 by reflexivity.
  assert (macros initial !! "WIN32_LEAN_AND_MEAN" = None) as H2 by reflexivity.
  exact (conj HW (conj HR (conj H1 (conj H2
           (clean_inclusion_raises_no_diagnostic
              sample_Windows_h sample_RainmeterAPI_h initial HW HR H1 H2))))).
Defined.

(** X7.  Defining or undefining a macro other than the four of the preamble
    gives the same macro table whether it is done before the macro
    definitions of the preamble or after them. *)
Theorem unrelated_macros_commute (s : pp_state) (n b : string) :
  n ≠ "LIBRARY_EXPORTS" → n ≠ "UNICODE" → n ≠ "_UNICODE" →
  n ≠ "WIN32_LEAN_AND_MEAN" →
  macros (wrapper_h_macros (define n b s)) = macros (define n b (wrapper_h_macros s))
  ∧ macros (wrapper_h_macros (undef n s)) = macros (undef n (wrapper_h_macros s)).
Proof.
  intros H1 H2 H3 H4. split; apply map_eq; intros k.
  - rewrite lookup_wrapper_h_macros, !macros_define.
    destruct (decide (k = n)) as [->|Hk].
    + rewrite !decide_False by done. by rewrite !lookup_insert_eq.
    + rewrite !lookup_insert_ne by done. by rewrite lookup_wrapper_h_macros.
  - rewrite lookup_wrapper_h_macros. unfold undef. cbn [macros].
    destruct (decide (k = n)) as [->|Hk].
    + rewrite !decide_False by done. by rewrite !lookup_delete_eq.
    + rewrite !lookup_delete_ne by done. by rewrite lookup_wrapper_h_macros.
Qed.

(** X7 for [NDEBUG]. *)
Lemma unrelated_macros_commute_witness :
  macros (wrapper_h_macros (define "NDEBUG" "1" initial)) =
    macros (define "NDEBUG" "1" (wrapper_h_macros initial))
  ∧ macros (wrapper_h_macros (undef "NDEBUG" initial)) =
      macros (undef "NDEBUG" (wrapper_h_macros initial)).
Proof.
  apply (unrelated_macros_commute initial "NDEBUG" "1"); discriminate.
Defined.
